(** * tdd-demo: the permission check of [app/userDetails.js]

    The module exports one object with three methods.  Two of them,
    [checkUserDetails] and [displayErrorMessage], are collaborators that
    the specs replace by spies; the third, [verifyUserDetails], is the
    decision function verified here.

    The development has four parts:
    - [JS]: the values of the language and its strict equality [===];
    - [Effects]: programs that call the methods of [this], and the
      interpreter that runs them against arbitrary collaborators while
      recording every call;
    - [UserDetails]: the method, transcribed from the source;
    - the properties of the method, and the spec file replayed on spies. *)

From Stdlib Require Import ZArith List String Bool Lia Eqdep_dec.
From Stdlib Require Import Floats.SpecFloat.
From ExtLib Require Import Structures.Monad.
Import ListNotations.
Import MonadNotation.

Local Open Scope Z_scope.

(* ===================================================================== *)
(** ** The values of the language *)
(* ===================================================================== *)

Module JS.

(** A Number is an IEEE 754 binary64 value.  The representation is the
    standard library's [spec_float]; the validity proof keeps only the
    canonical mantissa/exponent pairs, so that a double has exactly one
    representation. *)

Definition prec : Z := 53.
Definition emax : Z := 1024.

Record number : Type := Number {
  repr : spec_float;
  repr_valid : valid_binary prec emax repr = true
}.

(** Numeric literals of the source: [1], [0] and [-1] (the latter is the
    unary minus applied to the literal [1]). *)

Definition lit_1 : number :=
  {| repr := binary_normalize prec emax 1 0 false; repr_valid := eq_refl |}.

Definition lit_0 : number :=
  {| repr := binary_normalize prec emax 0 0 false; repr_valid := eq_refl |}.

Definition lit_neg_1 : number :=
  {| repr := SFopp (repr lit_1); repr_valid := eq_refl |}.

(** Other doubles used in examples. *)

Definition neg_0 : number := {| repr := S754_zero true; repr_valid := eq_refl |}.
Definition nan : number := {| repr := S754_nan; repr_valid := eq_refl |}.
Definition lit_2 : number :=
  {| repr := binary_normalize prec emax 2 0 false; repr_valid := eq_refl |}.

(** The language types of ES5: Undefined, Null, Boolean, Number, String
    and Object.  An object value is a reference; two object values are
    the same object when the references are equal. *)

Inductive value : Type :=
| VUndefined
| VNull
| VBool (b : bool)
| VNumber (n : number)
| VString (s : string)
| VObject (ref : nat).

(** The Strict Equality Comparison [x === y] (ES5.1, 11.9.6): values of
    different types are never equal; Numbers compare as IEEE 754 values
    (NaN differs from everything, [+0] equals [-0]); Strings compare by
    contents, Booleans by value, objects by identity. *)

Definition strict_equals (x y : value) : bool :=
  match x, y with
  | VUndefined, VUndefined => true
  | VNull, VNull => true
  | VBool a, VBool b => Bool.eqb a b
  | VNumber a, VNumber b => SFeqb (repr a) (repr b)
  | VString a, VString b => String.eqb a b
  | VObject a, VObject b => Nat.eqb a b
  | _, _ => false
  end.

Infix "===" := strict_equals (at level 70, no associativity).

(** The integer a double denotes, when it denotes one.  Both zeros
    denote [0]; infinities, NaN and fractions denote no integer. *)

Definition integer_of_float (x : spec_float) : option Z :=
  match x with
  | S754_zero _ => Some 0
  | S754_finite s m e =>
      if 0 <=? e then Some (cond_Zopp s (Zpos m * 2 ^ e))
      else if Zpos m mod 2 ^ (- e) =? 0
           then Some (cond_Zopp s (Zpos m / 2 ^ (- e)))
           else None
  | S754_infinity _ | S754_nan => None
  end.

(** The status code carried by a checker response: the integer it
    denotes when it is a Number, nothing otherwise (the string ["1"],
    [true], [null], ... are no status codes). *)

Definition status_code (r : value) : option Z :=
  match r with
  | VNumber n => integer_of_float (repr n)
  | _ => None
  end.

End JS.

(* ===================================================================== *)
(** ** Programs that call the methods of [this] *)
(* ===================================================================== *)

Module Effects.
Import JS.

(** The two collaborator properties of the exported object. *)

Inductive method : Type :=
| checkUserDetails
| displayErrorMessage.

Definition method_eqb (a b : method) : bool :=
  match a, b with
  | checkUserDetails, checkUserDetails => true
  | displayErrorMessage, displayErrorMessage => true
  | _, _ => false
  end.

(** A method body is a tree: it returns, or it calls [this.m(arg)] and
    continues with the value the call answers.  What the call does is not
    part of the body; it is decided by the object the body runs on. *)

Inductive js (A : Type) : Type :=
| Return (a : A)
| Invoke (m : method) (arg : value) (k : value -> js A).

Arguments Return {A} a.
Arguments Invoke {A} m arg k.

Fixpoint js_bind {A B : Type} (p : js A) (f : A -> js B) : js B :=
  match p with
  | Return a => f a
  | Invoke m arg k => Invoke m arg (fun v => js_bind (k v) f)
  end.

#[export] Instance Monad_js : Monad js :=
  {| ret := @Return; bind := @js_bind |}.

(** [this_call m arg] is the expression [this.m( arg )]. *)

Definition this_call (m : method) (arg : value) : js value :=
  Invoke m arg Return.

Section Run.

(** Everything a collaborator can read or change: the spies' records,
    the page, the properties of [this] themselves. *)
Variable World : Type.

(** A call returns a value or throws one; either way it may have
    changed the world. *)
Inductive outcome : Type :=
| Normal (v : value) (w : World)
| Throw (e : value) (w : World).

(** The object a method runs on: how [this.m(arg)] behaves in a given
    world.  Because the world is an argument, a collaborator that
    replaces a property of [this] is covered. *)
Definition object : Type := method -> value -> World -> outcome.

Variable this : object.

Inductive completion (A : Type) : Type :=
| Returned (a : A)
| Threw (e : value).

(** One execution of a method body: how it completed, the world it
    left, and the calls it made on [this], oldest first. *)
Record execution (A : Type) : Type := Execution {
  result : completion A;
  final : World;
  calls : list (method * value)
}.

Arguments Returned {A} a.
Arguments Threw {A} e.
Arguments Execution {A} result final calls.
Arguments result {A} e.
Arguments final {A} e.
Arguments calls {A} e.

(** The body has no [try]: a collaborator's exception ends the
    execution and reaches the caller. *)
Fixpoint run {A : Type} (p : js A) (w : World) : execution A :=
  match p with
  | Return a => Execution (Returned a) w []
  | Invoke m arg k =>
      match this m arg w with
      | Normal v w' =>
          let rest := run (k v) w' in
          Execution (result rest) (final rest) ((m, arg) :: calls rest)
      | Throw e w' => Execution (Threw e) w' [(m, arg)]
      end
  end.

(** The arguments of the calls made to method [m], oldest first. *)
Definition calls_to {A : Type} (m : method) (x : execution A) : list value :=
  map snd (filter (fun c => method_eqb (fst c) m) (calls x)).

(** A collaborator that returns normally whatever it is given. *)
Definition returns_normally (m : method) : Prop :=
  forall arg w, exists v w', this m arg w = Normal v w'.

End Run.

Arguments Normal {World} v w.
Arguments Throw {World} e w.
Arguments Returned {A} a.
Arguments Threw {A} e.
Arguments Execution {World A} result final calls.
Arguments result {World A} e.
Arguments final {World A} e.
Arguments calls {World A} e.
Arguments run {World} this {A} p w.
Arguments calls_to {World A} m x.
Arguments returns_normally {World} this m.

End Effects.

(* ===================================================================== *)
(** ** [app/userDetails.js] *)
(* ===================================================================== *)

Module UserDetails.
Import JS Effects.

Local Open Scope monad_scope.
Local Open Scope string_scope.

(** The method [verifyUserDetails], statement by statement.  The local
    [userVerified] is assigned on the first branch only. *)

Definition verifyUserDetails (username : value) : js bool :=
  let userVerified := false in
  response <- this_call checkUserDetails username ;;
  if response === VNumber lit_1 then
    let userVerified := true in
    ret userVerified
  else if response === VNumber lit_0 then
    this_call displayErrorMessage
      (VString "You do not have admin rights to this system") ;;
    ret userVerified
  else if response === VNumber lit_neg_1 then
    this_call displayErrorMessage
      (VString "User details not recognised") ;;
    ret userVerified
  else
    ret userVerified.

(** The collaborators as the module defines them: [function () {}]
    ignores its arguments, touches nothing and returns [undefined]. *)

Definition module_exports {World : Type} : object World :=
  fun _ _ w => Normal VUndefined w.

End UserDetails.

(* ===================================================================== *)
(** ** The spies of the spec file *)
(* ===================================================================== *)

Module Spec.
Import JS Effects UserDetails.

(** [spyOn( userDetails, m )] replaces the method by a spy: it records
    the argument of every call and returns the value configured with
    [and.returnValue] ([undefined] until then). *)

Record spies : Type := Spies {
  returnValue : method -> value;
  recorded : list (method * value)
}.

Definition spyOn : spies :=
  {| returnValue := fun _ => VUndefined; recorded := [] |}.

Definition and_returnValue (m : method) (v : value) (w : spies) : spies :=
  {| returnValue := fun m' => if method_eqb m' m then v else returnValue w m';
     recorded := recorded w |}.

Definition userDetails : object spies :=
  fun m arg w =>
    Normal (returnValue w m)
           {| returnValue := returnValue w;
              recorded := recorded w ++ [(m, arg)] |}.

(** [expect( spy ).toHaveBeenCalledWith( v )]: some recorded call of the
    spy has argument [v].  The spec file only expects strings, on which
    the matcher's comparison is the equality of the contents. *)

Definition toHaveBeenCalledWith (m : method) (v : value) (w : spies) : bool :=
  existsb (fun c => method_eqb (fst c) m && (snd c === v)) (recorded w).

(** The outer [beforeEach] installs both spies; the inner ones make the
    checker spy answer [status], then call the method with [username]. *)

Definition answering (status : value) : spies :=
  and_returnValue checkUserDetails status spyOn.

Definition beforeEach (status username : value) : execution spies bool :=
  run userDetails (verifyUserDetails username) (answering status).

(** A collaborator that throws its argument, for the propagation
    examples. *)

Definition throwing (bad : method) : object spies :=
  fun m arg w => if method_eqb m bad then Throw arg w else userDetails m arg w.

End Spec.

(* ===================================================================== *)
(** ** The earlier versions of the method, from [README.md] *)
(* ===================================================================== *)

Module Readme.
Import JS Effects.

Local Open Scope monad_scope.

(** A [switch] statement whose clauses all end in [return]: the first
    clause whose label is [===] to the scrutinee runs, the [default]
    clause otherwise (ES5.1, 12.11). *)

Fixpoint switch {A : Type} (scrutinee : value)
         (clauses : list (value * js A)) (default : js A) : js A :=
  match clauses with
  | [] => default
  | (label, body) :: rest =>
      if scrutinee === label then body else switch scrutinee rest default
  end.

(** The version that switches on the checker's response. *)

Module OnResponse.

Definition verifyUserDetails (username : value) : js bool :=
  response <- this_call checkUserDetails username ;;
  switch response [(VNumber lit_1, ret true)] (ret false).

End OnResponse.

(** The version refactored to a flag, before the error messages. *)

Module Flag.

Definition verifyUserDetails (username : value) : js bool :=
  let userVerified := false in
  response <- this_call checkUserDetails username ;;
  if response === VNumber lit_1 then
    let userVerified := true in
    ret userVerified
  else
    ret userVerified.

End Flag.

End Readme.

(* ===================================================================== *)
(** ** Facts about Numbers and strict equality *)
(* ===================================================================== *)

Module JSFacts.
Import JS.

(** Two Numbers with the same representation are the same Number: the
    validity proof is an equation between booleans. *)

Lemma number_ext (a b : number) : repr a = repr b -> a = b.
Proof.
  destruct a as [x Hx], b as [y Hy]; simpl; intros <-.
  f_equal. apply UIP_dec, bool_dec.
Qed.

(** The number of binary digits of a mantissa is its [Pos.size]. *)

Lemma digits2_pos_size (m : positive) : digits2_pos m = Pos.size m.
Proof. induction m; simpl; congruence. Qed.

(** A power of two [2 ^ k] has [k + 1] binary digits. *)

Lemma size_pow2 (k : Z) (m : positive) :
  0 <= k -> Zpos m = 2 ^ k -> Zpos (Pos.size m) = k + 1.
Proof.
  intros Hk Hm.
  assert (Hgt : 2 ^ k < 2 ^ Zpos (Pos.size m)).
  { rewrite <- Hm. change 2 with (Zpos 2). rewrite <- Pos2Z.inj_pow.
    apply Pos2Z.pos_lt_pos, Pos.size_gt. }
  assert (Hle : 2 ^ Zpos (Pos.size m) <= 2 ^ (k + 1)).
  { rewrite Z.pow_add_r, <- Hm by lia. change (2 ^ 1) with 2.
    rewrite Z.mul_comm. change (2 * Zpos m) with (Zpos m~0).
    change 2 with (Zpos 2). rewrite <- Pos2Z.inj_pow.
    apply Pos2Z.pos_le_pos, Pos.size_le. }
  apply Z.pow_lt_mono_r_iff in Hgt; [|lia|lia].
  apply Z.pow_le_mono_r_iff in Hle; lia.
Qed.

Lemma abs_cond_Zopp (s : bool) (x : Z) : 0 <= x -> Z.abs (cond_Zopp s x) = x.
Proof. destruct s; unfold cond_Zopp; lia. Qed.

(** The only canonical binary64 mantissa/exponent pair of magnitude 1 is
    [2 ^ 52 * 2 ^ -52]. *)

Lemma unit_magnitude (s : bool) (m : positive) (e : Z) (z : Z) :
  valid_binary prec emax (S754_finite s m e) = true ->
  integer_of_float (S754_finite s m e) = Some z ->
  Z.abs z = 1 ->
  m = 4503599627370496%positive /\ e = -52.
Proof.
  unfold valid_binary, bounded, canonical_mantissa, fexp, emin, prec, emax.
  rewrite digits2_pos_size. intros Hv Hz Habs.
  apply andb_prop in Hv. destruct Hv as [Hc _]. apply Z.eqb_eq in Hc.
  unfold integer_of_float in Hz.
  destruct (Z.leb_spec 0 e) as [He|He].
  - assert (Hz' : cond_Zopp s (Zpos m * 2 ^ e) = z) by congruence.
    clear Hz; subst z.
    assert (0 < 2 ^ e) by (apply Z.pow_pos_nonneg; lia).
    rewrite abs_cond_Zopp in Habs by nia.
    apply Z.eq_mul_1_nonneg in Habs; [|lia].
    destruct Habs as [Hm He1]. assert (m = 1%positive) by lia. subst m.
    assert (e = 0) by (destruct (Z.eq_dec e 0); [assumption | 
      assert (2 ^ 1 <= 2 ^ e) by (apply Z.pow_le_mono_r; lia); simpl in *; lia]).
    subst e. simpl in Hc. lia.
  - destruct (Z.eqb_spec (Zpos m mod 2 ^ (- e)) 0) as [Hmod|Hmod]; [|discriminate].
    assert (Hz' : cond_Zopp s (Zpos m / 2 ^ (- e)) = z) by congruence.
    clear Hz; subst z.
    assert (Hp : 0 < 2 ^ (- e)) by (apply Z.pow_pos_nonneg; lia).
    rewrite abs_cond_Zopp in Habs by (apply Z.div_pos; lia).
    assert (Hm : Zpos m = 2 ^ (- e)).
    { rewrite (Z.div_mod (Zpos m) (2 ^ (- e))) at 1 by lia. rewrite Hmod, Habs. lia. }
    rewrite (size_pow2 (- e) m) in Hc by lia.
    assert (e = -52) by lia. subst e. split; [|reflexivity].
    simpl in Hm. lia.
Qed.

(** IEEE equality on finite doubles is equality of the three fields. *)

Lemma SFeqb_finite (s s' : bool) (m m' : positive) (e e' : Z) :
  SFeqb (S754_finite s m e) (S754_finite s' m' e') = true <->
  s = s' /\ m = m' /\ e = e'.
Proof.
  unfold SFeqb, SFcompare. split.
  - destruct s, s'; try discriminate;
      destruct (Z.compare_spec e e') as [He|He|He]; try discriminate;
      change (Pos.compare_cont Eq m m') with (Pos.compare m m');
      destruct (Pos.compare_spec m m') as [Hm|Hm|Hm]; try discriminate;
      auto.
  - intros (-> & -> & ->).
    rewrite Z.compare_refl.
    change (Pos.compare_cont Eq m' m') with (Pos.compare m' m').
    rewrite Pos.compare_refl. destruct s'; reflexivity.
Qed.

(** Only the two zeros denote the integer 0. *)

Lemma integer_of_float_0 (x : spec_float) :
  integer_of_float x = Some 0 <-> exists s, x = S754_zero s.
Proof.
  split.
  - destruct x as [s|s| |s m e]; try discriminate.
    + eauto.
    + unfold integer_of_float. intros Hz. exfalso.
      destruct (Z.leb_spec 0 e) as [He|He].
      * assert (Hz' : cond_Zopp s (Zpos m * 2 ^ e) = 0) by congruence.
        assert (0 < 2 ^ e) by (apply Z.pow_pos_nonneg; lia).
        apply (f_equal Z.abs) in Hz'. rewrite abs_cond_Zopp in Hz' by nia.
        change (Z.abs 0) with 0 in Hz'.
        pose proof (Z.mul_pos_pos (Zpos m) (2 ^ e)). lia.
      * destruct (Z.eqb_spec (Zpos m mod 2 ^ (- e)) 0) as [Hmod|Hmod];
          [|discriminate].
        assert (Hz' : cond_Zopp s (Zpos m / 2 ^ (- e)) = 0) by congruence.
        assert (Hp : 0 < 2 ^ (- e)) by (apply Z.pow_pos_nonneg; lia).
        apply (f_equal Z.abs) in Hz'.
        rewrite abs_cond_Zopp in Hz' by (apply Z.div_pos; lia).
        change (Z.abs 0) with 0 in Hz'.
        pose proof (Z.div_mod (Zpos m) (2 ^ (- e))). lia.
  - intros [s ->]. reflexivity.
Qed.

(** Only [1] denotes the integer 1, and only [-1] the integer -1. *)

Lemma integer_of_float_unit (x : spec_float) (s : bool) :
  valid_binary prec emax x = true ->
  integer_of_float x = Some (cond_Zopp s 1) <->
  x = S754_finite s 4503599627370496 (-52).
Proof.
  intros Hv. split.
  - destruct x as [s'|s'| |s' m e]; try discriminate.
    + destruct s; discriminate.
    + intros Hz.
      destruct (unit_magnitude s' m e _ Hv Hz) as [-> ->].
      { destruct s; reflexivity. }
      vm_compute in Hz. destruct s, s'; try discriminate; reflexivity.
  - intros ->. destruct s; reflexivity.
Qed.

Lemma SFeqb_to_finite (x : spec_float) (s : bool) (m : positive) (e : Z) :
  SFeqb x (S754_finite s m e) = true <-> x = S754_finite s m e.
Proof.
  destruct x as [s'|s'| |s' m' e'].
  - split; [destruct s; discriminate | discriminate].
  - split; [destruct s, s'; discriminate | discriminate].
  - split; discriminate.
  - rewrite SFeqb_finite. split.
    + intros (-> & -> & ->). reflexivity.
    + intros [= -> -> ->]. auto.
Qed.

Lemma SFeqb_to_zero (x : spec_float) (s : bool) :
  SFeqb x (S754_zero s) = true <-> exists s', x = S754_zero s'.
Proof.
  destruct x as [s'|s'| |s' m' e'].
  - split; [eauto | reflexivity].
  - split; [destruct s'; discriminate | intros [? [=]]].
  - split; [discriminate | intros [? [=]]].
  - split; [destruct s'; discriminate | intros [? [=]]].
Qed.

(** The three tests of the method decide the status code. *)

Lemma strict_equals_1 (r : value) :
  reflect (status_code r = Some 1) (r === VNumber lit_1).
Proof.
  apply iff_reflect.
  destruct r as [| | b | [x Hx] | s | ref]; try (split; discriminate).
  cbn [strict_equals status_code repr lit_1].
  change (binary_normalize prec emax 1 0 false)
    with (S754_finite false 4503599627370496 (-52)).
  rewrite SFeqb_to_finite. apply (integer_of_float_unit x false Hx).
Qed.

Lemma strict_equals_neg_1 (r : value) :
  reflect (status_code r = Some (-1)) (r === VNumber lit_neg_1).
Proof.
  apply iff_reflect.
  destruct r as [| | b | [x Hx] | s | ref]; try (split; discriminate).
  cbn [strict_equals status_code repr lit_neg_1 lit_1].
  change (SFopp (binary_normalize prec emax 1 0 false))
    with (S754_finite true 4503599627370496 (-52)).
  rewrite SFeqb_to_finite. apply (integer_of_float_unit x true Hx).
Qed.

Lemma strict_equals_0 (r : value) :
  reflect (status_code r = Some 0) (r === VNumber lit_0).
Proof.
  apply iff_reflect.
  destruct r as [| | b | [x Hx] | s | ref]; try (split; discriminate).
  cbn [strict_equals status_code repr lit_0].
  change (binary_normalize prec emax 0 0 false) with (S754_zero false).
  rewrite SFeqb_to_zero. apply integer_of_float_0.
Qed.

(** The responses with a recognised status code, as values. *)

Lemma status_code_1 (r : value) : status_code r = Some 1 <-> r = VNumber lit_1.
Proof.
  split; [|intros ->; reflexivity].
  destruct r as [| | b | n | s | ref]; try discriminate.
  cbn [status_code]. intros H. f_equal. apply number_ext.
  apply (integer_of_float_unit (repr n) false (repr_valid n)) in H. exact H.
Qed.

Lemma status_code_neg_1 (r : value) :
  status_code r = Some (-1) <-> r = VNumber lit_neg_1.
Proof.
  split; [|intros ->; reflexivity].
  destruct r as [| | b | n | s | ref]; try discriminate.
  cbn [status_code]. intros H. f_equal. apply number_ext.
  apply (integer_of_float_unit (repr n) true (repr_valid n)) in H. exact H.
Qed.

Lemma status_code_0 (r : value) :
  status_code r = Some 0 <-> r = VNumber lit_0 \/ r = VNumber neg_0.
Proof.
  split; [|intros [->| ->]; reflexivity].
  destruct r as [| | b | n | s | ref]; try discriminate.
  cbn [status_code]. intros H. apply integer_of_float_0 in H.
  destruct H as [[|] H]; [right|left]; f_equal; apply number_ext; exact H.
Qed.

End JSFacts.

(* ===================================================================== *)
(** ** Properties of [verifyUserDetails] *)
(* ===================================================================== *)

Import JS Effects UserDetails JSFacts.

Local Open Scope monad_scope.
Local Open Scope string_scope.

(** Case analysis on the three tests of the method, in source order,
    with the status code of the response in each branch. *)

Ltac branches r :=
  destruct (strict_equals_1 r) as [S1|S1];
  [|destruct (strict_equals_0 r) as [S0|S0];
    [|destruct (strict_equals_neg_1 r) as [Sn|Sn]]].

Section Properties.

Variable World : Type.
Variable this : object World.

(** *** How the body runs *)

Lemma run_ret {A : Type} (a : A) (w : World) :
  run this (ret a) w = Execution (Returned a) w [].
Proof. reflexivity. Qed.

(** A reporter call followed by [return userVerified]. *)
Lemma run_report (msg : value) (w : World) :
  run this (this_call displayErrorMessage msg ;; ret false) w =
  match this displayErrorMessage msg w with
  | Normal _ w' => Execution (Returned false) w' [(displayErrorMessage, msg)]
  | Throw e w' => Execution (Threw e) w' [(displayErrorMessage, msg)]
  end.
Proof.
  cbn. destruct (this displayErrorMessage msg w); reflexivity.
Qed.

(** The first statement is the checker call; the rest runs in the world
    the checker left. *)
Lemma run_verifyUserDetails (username : value) (w : World) :
  run this (verifyUserDetails username) w =
  match this checkUserDetails username w with
  | Normal response w1 =>
      let rest :=
        run this
          (if response === VNumber lit_1 then ret true
           else if response === VNumber lit_0 then
             this_call displayErrorMessage
               (VString "You do not have admin rights to this system") ;;
             ret false
           else if response === VNumber lit_neg_1 then
             this_call displayErrorMessage
               (VString "User details not recognised") ;;
             ret false
           else ret false) w1 in
      Execution (result rest) (final rest)
                ((checkUserDetails, username) :: calls rest)
  | Throw e w1 => Execution (Threw e) w1 [(checkUserDetails, username)]
  end.
Proof. reflexivity. Qed.

(** X2. An exception of the checker reaches the caller: the method throws
    the same value, in the world the checker left, and the reporter is
    not called. *)
Lemma checker_exception_propagates (username e : value) (w w1 : World) :
  this checkUserDetails username w = Throw e w1 ->
  run this (verifyUserDetails username) w =
  Execution (Threw e) w1 [(checkUserDetails, username)].
Proof.
  intros Hc. rewrite run_verifyUserDetails, Hc. reflexivity.
Qed.

(** An exception of the reporter reaches the caller too. *)
Lemma reporter_exception_propagates (username r e : value)
      (w w1 w2 : World) :
  this checkUserDetails username w = Normal r w1 ->
  (forall msg, this displayErrorMessage msg w1 = Throw e w2) ->
  status_code r = Some 0 \/ status_code r = Some (-1) ->
  result (run this (verifyUserDetails username) w) = Threw e.
Proof.
  intros Hc Hd Hs. rewrite run_verifyUserDetails, Hc. cbn zeta.
  branches r; rewrite ?run_report, ?run_ret, ?Hd; cbn [result];
    try reflexivity; destruct Hs; congruence.
Qed.

(** *** The decision *)

(** C1. When the checker answers [r] (and the reporter returns), the
    method returns [true] exactly when [r] is the integer 1, and
    [false] for every other response. *)
Theorem verifyUserDetails_true_iff_status_1
        (username r : value) (w w1 : World) :
  this checkUserDetails username w = Normal r w1 ->
  returns_normally this displayErrorMessage ->
  (result (run this (verifyUserDetails username) w) = Returned true <->
   status_code r = Some 1) /\
  (status_code r <> Some 1 ->
   result (run this (verifyUserDetails username) w) = Returned false).
Proof.
  intros Hc Hd. rewrite run_verifyUserDetails, Hc. cbn zeta.
  branches r; rewrite ?run_report, ?run_ret; cbn [result].
  - split; [tauto | contradiction].
  - destruct (Hd (VString "You do not have admin rights to this system") w1)
      as (v & w2 & ->).
    split; [split; [discriminate | contradiction] | reflexivity].
  - destruct (Hd (VString "User details not recognised") w1)
      as (v & w2 & ->).
    split; [split; [discriminate | contradiction] | reflexivity].
  - split; [split; [discriminate | contradiction] | reflexivity].
Qed.

(** C2. When the checker answers 0, the method returns [false] and
    calls the reporter exactly once, with the message
    "You do not have admin rights to this system". *)
Theorem verifyUserDetails_status_0
        (username r v : value) (w w1 w2 : World) :
  this checkUserDetails username w = Normal r w1 ->
  status_code r = Some 0 ->
  this displayErrorMessage
       (VString "You do not have admin rights to this system") w1
    = Normal v w2 ->
  result (run this (verifyUserDetails username) w) = Returned false /\
  calls_to displayErrorMessage (run this (verifyUserDetails username) w)
    = [VString "You do not have admin rights to this system"].
Proof.
  intros Hc Hs Hd. rewrite run_verifyUserDetails, Hc. cbn zeta.
  branches r; try congruence.
  rewrite run_report, Hd. split; reflexivity.
Qed.

(** C3. When the checker answers -1, the method returns [false] and
    calls the reporter exactly once, with the message
    "User details not recognised". *)
Theorem verifyUserDetails_status_neg_1
        (username r v : value) (w w1 w2 : World) :
  this checkUserDetails username w = Normal r w1 ->
  status_code r = Some (-1) ->
  this displayErrorMessage (VString "User details not recognised") w1
    = Normal v w2 ->
  result (run this (verifyUserDetails username) w) = Returned false /\
  calls_to displayErrorMessage (run this (verifyUserDetails username) w)
    = [VString "User details not recognised"].
Proof.
  intros Hc Hs Hd. rewrite run_verifyUserDetails, Hc. cbn zeta.
  branches r; try congruence.
  rewrite run_report, Hd. split; reflexivity.
Qed.

(** C4. When the checker answers anything outside 1, 0 and -1, the
    method returns [false] and does not call the reporter. *)
Theorem verifyUserDetails_other_status
        (username r : value) (w w1 : World) :
  this checkUserDetails username w = Normal r w1 ->
  status_code r <> Some 1 ->
  status_code r <> Some 0 ->
  status_code r <> Some (-1) ->
  result (run this (verifyUserDetails username) w) = Returned false /\
  calls_to displayErrorMessage (run this (verifyUserDetails username) w)
    = [].
Proof.
  intros Hc H1 H0 Hn. rewrite run_verifyUserDetails, Hc. cbn zeta.
  branches r; try contradiction.
  rewrite run_ret. split; reflexivity.
Qed.

(** *** The calls *)

(** C5. Whatever the collaborators do, one call of the method makes
    exactly one call to the checker, and its argument is the caller's
    [username] as it was received. *)
Theorem verifyUserDetails_checks_once (username : value) (w : World) :
  calls_to checkUserDetails (run this (verifyUserDetails username) w)
    = [username].
Proof.
  rewrite run_verifyUserDetails.
  destruct (this checkUserDetails username w) as [r w1|e w1];
    [cbn zeta | reflexivity].
  branches r; rewrite ?run_report, ?run_ret;
    try destruct (this displayErrorMessage _ w1); reflexivity.
Qed.

(** C6. One call of the method calls the reporter at most once, and
    only when the checker answered 0 or -1. *)
Theorem verifyUserDetails_reports_at_most_once
        (username r : value) (w w1 : World) :
  this checkUserDetails username w = Normal r w1 ->
  (List.length (calls_to displayErrorMessage
             (run this (verifyUserDetails username) w)) <= 1)%nat /\
  (calls_to displayErrorMessage (run this (verifyUserDetails username) w)
     <> [] ->
   status_code r = Some 0 \/ status_code r = Some (-1)).
Proof.
  intros Hc. rewrite run_verifyUserDetails, Hc. cbn zeta.
  branches r; rewrite ?run_report, ?run_ret;
    try destruct (this displayErrorMessage _ w1);
    unfold calls_to; cbn; split; auto; intros H; now destruct H.
Qed.

(** When the checker answers and the reporter returns, the method
    returns the outcome of its first test. *)
Lemma returned_of_response (username r : value) (w w1 : World) :
  this checkUserDetails username w = Normal r w1 ->
  returns_normally this displayErrorMessage ->
  result (run this (verifyUserDetails username) w)
    = Returned (r === VNumber lit_1).
Proof.
  intros Hc Hd. rewrite run_verifyUserDetails, Hc. cbn zeta.
  destruct (r === VNumber lit_1); [reflexivity|].
  destruct (r === VNumber lit_0).
  { rewrite run_report.
    destruct (Hd (VString "You do not have admin rights to this system") w1)
      as (v & w2 & ->).
    reflexivity. }
  destruct (r === VNumber lit_neg_1); [|reflexivity].
  rewrite run_report.
  destruct (Hd (VString "User details not recognised") w1) as (v & w2 & ->).
  reflexivity.
Qed.

(** C7. When both collaborators return normally, the method returns a
    boolean: it does not throw. *)
Theorem verifyUserDetails_returns (username : value) (w : World) :
  returns_normally this checkUserDetails ->
  returns_normally this displayErrorMessage ->
  exists b : bool,
    result (run this (verifyUserDetails username) w) = Returned b.
Proof.
  intros Hcheck Hdisplay.
  destruct (Hcheck username w) as (r & w1 & Hc).
  exists (r === VNumber lit_1).
  now apply returned_of_response with (w1 := w1).
Qed.

(** What the reporter is told depends on the checker's response only:
    no message, or one of the two literals. *)
Lemma reports_of_response (username r : value) (w w1 : World) :
  this checkUserDetails username w = Normal r w1 ->
  calls_to displayErrorMessage (run this (verifyUserDetails username) w) =
  if r === VNumber lit_1 then []
  else if r === VNumber lit_0 then
    [VString "You do not have admin rights to this system"]
  else if r === VNumber lit_neg_1 then
    [VString "User details not recognised"]
  else [].
Proof.
  intros Hc. rewrite run_verifyUserDetails, Hc. cbn zeta.
  destruct (r === VNumber lit_1); [reflexivity|].
  destruct (r === VNumber lit_0).
  { rewrite run_report.
    destruct (this displayErrorMessage _ w1); reflexivity. }
  destruct (r === VNumber lit_neg_1); [|reflexivity].
  rewrite run_report.
  destruct (this displayErrorMessage _ w1); reflexivity.
Qed.

(** C8. Two successive calls, the second in the world the first one
    left, with the same username and the same checker response: both
    return the same boolean and make the same number of reporter
    calls. *)
Theorem verifyUserDetails_twice
        (username r : value) (w w1 w1' : World) :
  this checkUserDetails username w = Normal r w1 ->
  this checkUserDetails username
       (final (run this (verifyUserDetails username) w)) = Normal r w1' ->
  returns_normally this displayErrorMessage ->
  let first := run this (verifyUserDetails username) w in
  let second := run this (verifyUserDetails username) (final first) in
  (exists b : bool, result first = Returned b /\ result second = Returned b) /\
  List.length (calls_to displayErrorMessage first)
    = List.length (calls_to displayErrorMessage second).
Proof.
  intros Hc Hc' Hd first second. split.
  - exists (r === VNumber lit_1). subst first second.
    split; eapply returned_of_response; eassumption.
  - subst first second.
    rewrite (reports_of_response username r w w1 Hc).
    rewrite (reports_of_response username r _ w1' Hc'). reflexivity.
Qed.

(** C9. For two usernames and the same checker response, the reporter
    is told the same thing; what it is told is one of the two literals
    of the source, whatever the username. *)
Theorem error_message_independent_of_username
        (u1 u2 r : value) (w1 w2 w1' w2' : World) :
  this checkUserDetails u1 w1 = Normal r w1' ->
  this checkUserDetails u2 w2 = Normal r w2' ->
  calls_to displayErrorMessage (run this (verifyUserDetails u1) w1)
    = calls_to displayErrorMessage (run this (verifyUserDetails u2) w2) /\
  (forall msg,
      In msg (calls_to displayErrorMessage
                (run this (verifyUserDetails u1) w1)) ->
      msg = VString "You do not have admin rights to this system" \/
      msg = VString "User details not recognised").
Proof.
  intros H1 H2.
  rewrite (reports_of_response u1 r w1 w1' H1).
  rewrite (reports_of_response u2 r w2 w2' H2).
  split; [reflexivity|].
  intros msg.
  destruct (r === VNumber lit_1); [intros []|].
  destruct (r === VNumber lit_0); [intros [<-|[]]; now left|].
  destruct (r === VNumber lit_neg_1); [intros [<-|[]]; now right|intros []].
Qed.

(** C10. If the reporter was called during a call of the method, the
    method did not return [true]. *)
Theorem report_implies_denied (username : value) (w : World) (b : bool) :
  result (run this (verifyUserDetails username) w) = Returned b ->
  calls_to displayErrorMessage (run this (verifyUserDetails username) w)
    <> [] ->
  b = false.
Proof.
  rewrite run_verifyUserDetails.
  destruct (this checkUserDetails username w) as [r w1|e w1];
    [cbn zeta | discriminate].
  destruct (r === VNumber lit_1).
  - rewrite run_ret. intros _ H. now elim H.
  - destruct (r === VNumber lit_0);
      [|destruct (r === VNumber lit_neg_1)];
      rewrite ?run_report, ?run_ret;
      try destruct (this displayErrorMessage _ w1);
      cbn [result]; congruence.
Qed.

End Properties.

(* ===================================================================== *)
(** ** The spec file, replayed on the spies *)
(* ===================================================================== *)

Module SpecFacts.
Import Spec.

Lemma spies_return_normally (m : method) : returns_normally userDetails m.
Proof. intros arg w. eexists. eexists. reflexivity. Qed.

(** "when a user is an authorised admin user" *)

Example batman_checks_the_user_permissions :
  toHaveBeenCalledWith checkUserDetails (VString "batman")
    (final (beforeEach (VNumber lit_1) (VString "batman"))) = true.
Proof. reflexivity. Qed.

Example batman_allows_access :
  result (beforeEach (VNumber lit_1) (VString "batman")) = Returned true.
Proof. reflexivity. Qed.

(** "when a user IS NOT an authorised admin user" *)

Example robin_checks_the_user_permissions :
  toHaveBeenCalledWith checkUserDetails (VString "robin")
    (final (beforeEach (VNumber lit_0) (VString "robin"))) = true.
Proof. reflexivity. Qed.

Example robin_displays_an_error_message :
  toHaveBeenCalledWith displayErrorMessage
    (VString "You do not have admin rights to this system")
    (final (beforeEach (VNumber lit_0) (VString "robin"))) = true.
Proof. reflexivity. Qed.

Example robin_does_not_allow_access :
  result (beforeEach (VNumber lit_0) (VString "robin")) = Returned false.
Proof. reflexivity. Qed.

(** "when a user is not recognised" *)

Example joker_checks_the_user_permissions :
  toHaveBeenCalledWith checkUserDetails (VString "joker")
    (final (beforeEach (VNumber lit_neg_1) (VString "joker"))) = true.
Proof. reflexivity. Qed.

Example joker_displays_an_error_message :
  toHaveBeenCalledWith displayErrorMessage
    (VString "User details not recognised")
    (final (beforeEach (VNumber lit_neg_1) (VString "joker"))) = true.
Proof. reflexivity. Qed.

Example joker_does_not_allow_access :
  result (beforeEach (VNumber lit_neg_1) (VString "joker")) = Returned false.
Proof. reflexivity. Qed.

(** The spies saw what the interpreter logged. *)

Example spies_agree_with_the_log :
  recorded (final (beforeEach (VNumber lit_0) (VString "robin")))
    = calls (beforeEach (VNumber lit_0) (VString "robin")).
Proof. reflexivity. Qed.

(** Responses the spec file does not cover. *)

(** [-0 === 0]: negative zero is the status code 0. *)
Example negative_zero_is_status_0 :
  status_code (VNumber neg_0) = Some 0 /\
  calls (beforeEach (VNumber neg_0) (VString "robin")) =
    [(checkUserDetails, VString "robin");
     (displayErrorMessage,
      VString "You do not have admin rights to this system")].
Proof. split; reflexivity. Qed.

(** The string ["1"] is not the Number 1: no conversion is made. *)
Example string_one_is_denied_silently :
  beforeEach (VString "1") (VString "batman") =
    Execution (Returned false)
              (final (beforeEach (VString "1") (VString "batman")))
              [(checkUserDetails, VString "batman")].
Proof. reflexivity. Qed.

Example true_is_denied_silently :
  result (beforeEach (VBool true) (VString "batman")) = Returned false /\
  calls_to displayErrorMessage (beforeEach (VBool true) (VString "batman"))
    = [].
Proof. split; reflexivity. Qed.

Example nan_is_denied_silently :
  result (beforeEach (VNumber nan) (VString "batman")) = Returned false /\
  calls_to displayErrorMessage (beforeEach (VNumber nan) (VString "batman"))
    = [].
Proof. split; reflexivity. Qed.

Example two_is_denied_silently :
  status_code (VNumber lit_2) = Some 2 /\
  result (beforeEach (VNumber lit_2) (VString "batman")) = Returned false /\
  calls_to displayErrorMessage (beforeEach (VNumber lit_2) (VString "batman"))
    = [].
Proof. repeat split; reflexivity. Qed.

(** The module as it is exported, without spies: the empty checker
    answers [undefined], so every user is denied without a message. *)
Example unspied_module_denies_silently (username : value) :
  run module_exports (verifyUserDetails username) tt =
    Execution (Returned false) tt [(checkUserDetails, username)].
Proof. reflexivity. Qed.

(** A reporter that throws: the caller gets the exception, not [false]. *)
Example throwing_reporter :
  result (run (throwing displayErrorMessage)
              (verifyUserDetails (VString "robin"))
              (answering (VNumber lit_0)))
    = Threw (VString "You do not have admin rights to this system").
Proof. reflexivity. Qed.

End SpecFacts.

(* ===================================================================== *)
(** ** The properties at the three users of the spec file *)
(* ===================================================================== *)

Import Spec SpecFacts.

Lemma verifyUserDetails_true_iff_status_1_witness :
  (result (beforeEach (VNumber lit_1) (VString "batman")) = Returned true <->
   status_code (VNumber lit_1) = Some 1) /\
  (status_code (VNumber lit_1) <> Some 1 ->
   result (beforeEach (VNumber lit_1) (VString "batman")) = Returned false).
Proof.
  eapply (verifyUserDetails_true_iff_status_1 spies userDetails
            (VString "batman") (VNumber lit_1) (answering (VNumber lit_1))).
  - reflexivity.
  - intros arg w. eexists. eexists. reflexivity.
Defined.

Lemma verifyUserDetails_status_0_witness :
  status_code (VNumber lit_0) = Some 0 /\
  result (beforeEach (VNumber lit_0) (VString "robin")) = Returned false /\
  calls_to displayErrorMessage (beforeEach (VNumber lit_0) (VString "robin"))
    = [VString "You do not have admin rights to this system"].
Proof.
  split; [reflexivity|].
  eapply (verifyUserDetails_status_0 spies userDetails
            (VString "robin") (VNumber lit_0) VUndefined
            (answering (VNumber lit_0))); reflexivity.
Defined.

Lemma verifyUserDetails_status_neg_1_witness :
  status_code (VNumber lit_neg_1) = Some (-1) /\
  result (beforeEach (VNumber lit_neg_1) (VString "joker")) = Returned false /\
  calls_to displayErrorMessage
    (beforeEach (VNumber lit_neg_1) (VString "joker"))
    = [VString "User details not recognised"].
Proof.
  split; [reflexivity|].
  eapply (verifyUserDetails_status_neg_1 spies userDetails
            (VString "joker") (VNumber lit_neg_1) VUndefined
            (answering (VNumber lit_neg_1))); reflexivity.
Defined.

Lemma verifyUserDetails_other_status_witness :
  status_code (VNumber lit_2) = Some 2 /\
  result (beforeEach (VNumber lit_2) (VString "penguin")) = Returned false /\
  calls_to displayErrorMessage (beforeEach (VNumber lit_2) (VString "penguin"))
    = [].
Proof.
  split; [reflexivity|].
  eapply (verifyUserDetails_other_status spies userDetails
            (VString "penguin") (VNumber lit_2) (answering (VNumber lit_2)));
    [reflexivity | discriminate | discriminate | discriminate].
Defined.

Lemma verifyUserDetails_reports_at_most_once_witness :
  (List.length
     (calls_to displayErrorMessage
        (beforeEach (VNumber lit_0) (VString "robin"))) <= 1)%nat /\
  (calls_to displayErrorMessage (beforeEach (VNumber lit_0) (VString "robin"))
     <> [] ->
   status_code (VNumber lit_0) = Some 0 \/
   status_code (VNumber lit_0) = Some (-1)).
Proof.
  eapply (verifyUserDetails_reports_at_most_once spies userDetails
            (VString "robin") (VNumber lit_0) (answering (VNumber lit_0))).
  reflexivity.
Defined.

Lemma verifyUserDetails_returns_witness :
  exists b : bool,
    result (beforeEach (VNumber lit_neg_1) (VString "joker")) = Returned b.
Proof.
  apply (verifyUserDetails_returns spies userDetails (VString "joker")
           (answering (VNumber lit_neg_1))).
  - intros arg w. eexists. eexists. reflexivity.
  - intros arg w. eexists. eexists. reflexivity.
Defined.

Lemma verifyUserDetails_twice_witness :
  (exists b : bool,
      result (beforeEach (VNumber lit_0) (VString "robin")) = Returned b /\
      result (run userDetails (verifyUserDetails (VString "robin"))
                  (final (beforeEach (VNumber lit_0) (VString "robin"))))
        = Returned b) /\
  List.length
    (calls_to displayErrorMessage
       (beforeEach (VNumber lit_0) (VString "robin")))
  = List.length
      (calls_to displayErrorMessage
         (run userDetails (verifyUserDetails (VString "robin"))
              (final (beforeEach (VNumber lit_0) (VString "robin"))))).
Proof.
  eapply (verifyUserDetails_twice spies userDetails
            (VString "robin") (VNumber lit_0) (answering (VNumber lit_0))).
  - reflexivity.
  - reflexivity.
  - intros arg w. eexists. eexists. reflexivity.
Defined.

Lemma error_message_independent_of_username_witness :
  calls_to displayErrorMessage (beforeEach (VNumber lit_0) (VString "robin"))
    = calls_to displayErrorMessage
        (beforeEach (VNumber lit_0) (VString "joker")) /\
  (forall msg,
      In msg (calls_to displayErrorMessage
                (beforeEach (VNumber lit_0) (VString "robin"))) ->
      msg = VString "You do not have admin rights to this system" \/
      msg = VString "User details not recognised").
Proof.
  eapply (error_message_independent_of_username spies userDetails
            (VString "robin") (VString "joker") (VNumber lit_0)
            (answering (VNumber lit_0)) (answering (VNumber lit_0)));
    reflexivity.
Defined.

Lemma report_implies_denied_witness :
  result (beforeEach (VNumber lit_0) (VString "robin")) = Returned false /\
  calls_to displayErrorMessage (beforeEach (VNumber lit_0) (VString "robin"))
    <> [] /\
  false = false.
Proof.
  split; [reflexivity|]. split; [discriminate|].
  apply (report_implies_denied spies userDetails (VString "robin")
           (answering (VNumber lit_0)) false);
    [reflexivity | discriminate].
Defined.

(* ===================================================================== *)
(** ** Further properties: exceptions, order of calls, the world *)
(* ===================================================================== *)

Section Further.

Variable World : Type.
Variable this : object World.

(** *** The module as it is exported *)

(** X1. With the collaborators the module itself defines (two empty
    functions), every user is denied: the method returns [false], the
    only call is the checker's, and the world is untouched. *)
Theorem exported_module_denies_everyone (username : value) (w : World) :
  run module_exports (verifyUserDetails username) w =
    Execution (Returned false) w [(checkUserDetails, username)].
Proof. reflexivity. Qed.

(** *** Exceptions *)

(** X3. The reporter's exception reaches the caller: on status 0 or -1,
    when the reporter throws [e], the method throws [e] instead of
    returning [false]; the world is the one the reporter left and the
    log is the checker call followed by the reporter call. *)
Theorem reporter_exception_reaches_caller
        (username r e : value) (w w1 w2 : World) :
  this checkUserDetails username w = Normal r w1 ->
  (status_code r = Some 0 ->
   this displayErrorMessage
        (VString "You do not have admin rights to this system") w1
     = Throw e w2 ->
   run this (verifyUserDetails username) w =
     Execution (Threw e) w2
       [(checkUserDetails, username);
        (displayErrorMessage,
         VString "You do not have admin rights to this system")]) /\
  (status_code r = Some (-1) ->
   this displayErrorMessage (VString "User details not recognised") w1
     = Throw e w2 ->
   run this (verifyUserDetails username) w =
     Execution (Threw e) w2
       [(checkUserDetails, username);
        (displayErrorMessage, VString "User details not recognised")]).
Proof.
  intros Hc. rewrite (run_verifyUserDetails World this), Hc. cbn zeta.
  split; intros Hs Hd; branches r; try congruence;
    rewrite (run_report World this), Hd; reflexivity.
Qed.


(** *** The order of the calls *)

(** X5. Whatever the collaborators do, the first call is the checker's,
    with the caller's username, and it is followed by nothing or by one
    reporter call with one of the two messages: the reporter is never
    called before the checker has answered. *)
Theorem checker_is_called_first (username : value) (w : World) :
  exists rest,
    calls (run this (verifyUserDetails username) w)
      = (checkUserDetails, username) :: rest /\
    (rest = [] \/
     rest = [(displayErrorMessage,
              VString "You do not have admin rights to this system")] \/
     rest = [(displayErrorMessage, VString "User details not recognised")]).
Proof.
  rewrite (run_verifyUserDetails World this).
  destruct (this checkUserDetails username w) as [r w1|e w1];
    [cbn zeta | exists []; split; [reflexivity | now left]].
  branches r; rewrite ?(run_report World this), ?(run_ret World this);
    try destruct (this displayErrorMessage _ w1);
    cbn [calls]; eexists; (split; [reflexivity|]); auto.
Qed.

(** *** The world *)



(** X7. The method never inspects the username: two usernames on which
    the checker behaves alike give the same completion, the same final
    world and the same reporter calls. *)
Theorem username_is_opaque (u1 u2 : value) (w : World) :
  this checkUserDetails u1 w = this checkUserDetails u2 w ->
  result (run this (verifyUserDetails u1) w)
    = result (run this (verifyUserDetails u2) w) /\
  final (run this (verifyUserDetails u1) w)
    = final (run this (verifyUserDetails u2) w) /\
  calls_to displayErrorMessage (run this (verifyUserDetails u1) w)
    = calls_to displayErrorMessage (run this (verifyUserDetails u2) w).
Proof.
  intros H. rewrite !(run_verifyUserDetails World this), H.
  destruct (this checkUserDetails u2 w) as [r w1|e w1];
    repeat split; reflexivity.
Qed.

(** *** Responses and types *)

(** X8. No conversion is made on the response: whatever is not a Number
    (a string such as ["1"], a boolean, [null], [undefined], an object)
    is denied without a message, in the world the checker left. *)
Theorem non_number_response_denied_silently
        (username r : value) (w w1 : World) :
  this checkUserDetails username w = Normal r w1 ->
  (forall n, r <> VNumber n) ->
  run this (verifyUserDetails username) w =
    Execution (Returned false) w1 [(checkUserDetails, username)].
Proof.
  intros Hc Hr. rewrite (run_verifyUserDetails World this), Hc.
  destruct r as [| | b | n | s | ref]; try reflexivity.
  now elim (Hr n).
Qed.

(** X9. The responses of each reporting branch, as values: the
    admin-rights message is displayed exactly for the two zeros [+0] and
    [-0], the not-recognised message exactly for [-1]. *)
Theorem reporting_branches_by_value (username r : value) (w w1 : World) :
  this checkUserDetails username w = Normal r w1 ->
  (calls_to displayErrorMessage (run this (verifyUserDetails username) w)
     = [VString "You do not have admin rights to this system"] <->
   r = VNumber lit_0 \/ r = VNumber neg_0) /\
  (calls_to displayErrorMessage (run this (verifyUserDetails username) w)
     = [VString "User details not recognised"] <->
   r = VNumber lit_neg_1).
Proof.
  intros Hc. rewrite (reports_of_response World this username r w w1 Hc).
  rewrite <- status_code_0, <- status_code_neg_1.
  branches r; split; split; intros H; try reflexivity;
    try discriminate H; congruence.
Qed.

(** *** The earlier versions *)

(** The flag version runs the checker and returns the outcome of its
    test. *)
Lemma run_flag (username : value) (w : World) :
  run this (Readme.Flag.verifyUserDetails username) w =
  match this checkUserDetails username w with
  | Normal r w1 =>
      Execution (Returned (r === VNumber lit_1)) w1
                [(checkUserDetails, username)]
  | Throw e w1 => Execution (Threw e) w1 [(checkUserDetails, username)]
  end.
Proof.
  cbn. destruct (this checkUserDetails username w) as [r w1|e w1];
    [|reflexivity].
  destruct (r === VNumber lit_1); reflexivity.
Qed.

(** X10. The refactoring of the README, from the [switch] on the response
    to the [userVerified] flag, changed nothing: both versions run alike
    on every object, world and username. *)
Theorem flag_refactoring_preserves_behaviour (username : value) (w : World) :
  run this (Readme.Flag.verifyUserDetails username) w
    = run this (Readme.OnResponse.verifyUserDetails username) w.
Proof.
  cbn. destruct (this checkUserDetails username w) as [r w1|e w1];
    [|reflexivity].
  destruct (r === VNumber lit_1); reflexivity.
Qed.

(** X11. Adding the error messages changed no verdict: when the reporter
    returns normally, the final method completes as the flag version
    does; the flag version never calls the reporter, and both make the
    same checker calls. *)
Theorem error_messages_preserve_verdict (username : value) (w : World) :
  returns_normally this displayErrorMessage ->
  result (run this (verifyUserDetails username) w)
    = result (run this (Readme.Flag.verifyUserDetails username) w) /\
  calls_to checkUserDetails (run this (verifyUserDetails username) w)
    = calls_to checkUserDetails
        (run this (Readme.Flag.verifyUserDetails username) w) /\
  calls_to displayErrorMessage
    (run this (Readme.Flag.verifyUserDetails username) w) = [].
Proof.
  intros Hd. rewrite run_flag, (run_verifyUserDetails World this).
  destruct (this checkUserDetails username w) as [r w1|e w1];
    [cbn zeta | repeat split; reflexivity].
  destruct (r === VNumber lit_1); [repeat split; reflexivity|].
  destruct (r === VNumber lit_0).
  { rewrite (run_report World this).
    destruct (Hd (VString "You do not have admin rights to this system") w1)
      as (v & w2 & ->).
    repeat split; reflexivity. }
  destruct (r === VNumber lit_neg_1); [|repeat split; reflexivity].
  rewrite (run_report World this).
  destruct (Hd (VString "User details not recognised") w1) as (v & w2 & ->).
  repeat split; reflexivity.
Qed.

End Further.

(* ===================================================================== *)
(** ** The further properties on the spies *)
(* ===================================================================== *)

Lemma checker_exception_propagates_witness :
  run (throwing checkUserDetails) (verifyUserDetails (VString "joker")) spyOn
    = Execution (Threw (VString "joker")) spyOn
                [(checkUserDetails, VString "joker")].
Proof.
  apply (checker_exception_propagates spies (throwing checkUserDetails)
           (VString "joker") (VString "joker") spyOn spyOn).
  reflexivity.
Defined.

Lemma reporter_exception_reaches_caller_witness :
  run (throwing displayErrorMessage) (verifyUserDetails (VString "robin"))
      (answering (VNumber lit_0))
    = Execution
        (Threw (VString "You do not have admin rights to this system"))
        {| returnValue := returnValue (answering (VNumber lit_0));
           recorded := [(checkUserDetails, VString "robin")] |}
        [(checkUserDetails, VString "robin");
         (displayErrorMessage,
          VString "You do not have admin rights to this system")].
Proof.
  apply (proj1 (reporter_exception_reaches_caller spies
                  (throwing displayErrorMessage)
                  (VString "robin") (VNumber lit_0) _
                  (answering (VNumber lit_0)) _ _ eq_refl));
    reflexivity.
Defined.



Lemma username_is_opaque_witness :
  result (run (@module_exports unit) (verifyUserDetails (VString "batman")) tt)
    = result (run module_exports (verifyUserDetails (VString "robin")) tt) /\
  final (run (@module_exports unit) (verifyUserDetails (VString "batman")) tt)
    = final (run module_exports (verifyUserDetails (VString "robin")) tt) /\
  calls_to displayErrorMessage
    (run (@module_exports unit) (verifyUserDetails (VString "batman")) tt)
    = calls_to displayErrorMessage
        (run module_exports (verifyUserDetails (VString "robin")) tt).
Proof.
  apply (username_is_opaque unit module_exports
           (VString "batman") (VString "robin") tt).
  reflexivity.
Defined.

Lemma non_number_response_denied_silently_witness :
  run userDetails (verifyUserDetails (VString "batman"))
      (answering (VString "1"))
    = Execution (Returned false)
        {| returnValue := returnValue (answering (VString "1"));
           recorded := [(checkUserDetails, VString "batman")] |}
        [(checkUserDetails, VString "batman")].
Proof.
  apply (non_number_response_denied_silently spies userDetails
           (VString "batman") (VString "1") (answering (VString "1"))).
  - reflexivity.
  - intros n. discriminate.
Defined.

Lemma reporting_branches_by_value_witness :
  (calls_to displayErrorMessage (beforeEach (VNumber neg_0) (VString "robin"))
     = [VString "You do not have admin rights to this system"] <->
   VNumber neg_0 = VNumber lit_0 \/ VNumber neg_0 = VNumber neg_0) /\
  (calls_to displayErrorMessage (beforeEach (VNumber neg_0) (VString "robin"))
     = [VString "User details not recognised"] <->
   VNumber neg_0 = VNumber lit_neg_1).
Proof.
  eapply (reporting_branches_by_value spies userDetails
            (VString "robin") (VNumber neg_0) (answering (VNumber neg_0))).
  reflexivity.
Defined.

Lemma error_messages_preserve_verdict_witness :
  result (beforeEach (VNumber lit_0) (VString "robin"))
    = result (run userDetails
                  (Readme.Flag.verifyUserDetails (VString "robin"))
                  (answering (VNumber lit_0))) /\
  calls_to checkUserDetails (beforeEach (VNumber lit_0) (VString "robin"))
    = calls_to checkUserDetails
        (run userDetails (Readme.Flag.verifyUserDetails (VString "robin"))
             (answering (VNumber lit_0))) /\
  calls_to displayErrorMessage
    (run userDetails (Readme.Flag.verifyUserDetails (VString "robin"))
         (answering (VNumber lit_0))) = [].
Proof.
  apply (error_messages_preserve_verdict spies userDetails
           (VString "robin") (answering (VNumber lit_0))).
  intros arg w. eexists. eexists. reflexivity.
Defined.

(* ===================================================================== *)
(** ** The spec file, for every username *)
(* ===================================================================== *)

(** On the spied object, what the spies have recorded after any method
    body is what they had before, followed by the calls the body made. *)
Lemma spies_record_the_calls {A : Type} (p : js A) (w : spies) :
  recorded (final (run userDetails p w))
    = (recorded w ++ calls (run userDetails p w))%list.
Proof.
  revert w. induction p as [a | m arg k IH]; intros w.
  - cbn. now rewrite app_nil_r.
  - cbn [run userDetails final calls]. rewrite IH. cbn [recorded].
    now rewrite <- app_assoc.
Qed.

(** X12. The expectations of the spec file do not depend on the names it
    uses: for every string username, the checker spy has been called with
    it; with the checker answering 1 access is allowed; with 0 and -1 it
    is refused and the reporter spy has been called with the respective
    message. *)
Theorem spec_file_passes_for_every_username (s : string) :
  (toHaveBeenCalledWith checkUserDetails (VString s)
     (final (beforeEach (VNumber lit_1) (VString s))) = true /\
   result (beforeEach (VNumber lit_1) (VString s)) = Returned true) /\
  (toHaveBeenCalledWith checkUserDetails (VString s)
     (final (beforeEach (VNumber lit_0) (VString s))) = true /\
   toHaveBeenCalledWith displayErrorMessage
     (VString "You do not have admin rights to this system")
     (final (beforeEach (VNumber lit_0) (VString s))) = true /\
   result (beforeEach (VNumber lit_0) (VString s)) = Returned false) /\
  (toHaveBeenCalledWith checkUserDetails (VString s)
     (final (beforeEach (VNumber lit_neg_1) (VString s))) = true /\
   toHaveBeenCalledWith displayErrorMessage
     (VString "User details not recognised")
     (final (beforeEach (VNumber lit_neg_1) (VString s))) = true /\
   result (beforeEach (VNumber lit_neg_1) (VString s)) = Returned false).
Proof.
  unfold beforeEach, toHaveBeenCalledWith.
  rewrite !spies_record_the_calls.
  repeat split; cbn; rewrite ?String.eqb_refl; reflexivity.
Qed.
